(** * Ext.ux.WebSocketManager: a registry of websockets and its dispatchers

  A shallow embedding of [src/ux/WebSocketManager.js].  The manager is a
  singleton that owns one [Ext.util.HashMap], [wsList], from url to
  websocket, and offers registration, lookup, iteration and three
  dispatch operations (broadcast, multicast, disconnect).

  The registry is passed explicitly: an operation that may change
  [wsList] or call a method of a websocket returns the registry it leaves
  behind together with the calls it made, in the order it made them. *)

From stdpp Require Import gmap strings list fin_maps.

(** ** Websockets and the calls the manager makes on them *)

(** A message is a [String/Object] in the source. *)
Inductive Message : Type :=
  | MsgString (s : string)
  | MsgObject (fields : list (string * string)).

(** What the manager uses of an [Ext.ux.WebSocket]: its [url] property
  ([None] when the websocket has none: the property reads undefined), the
  answer of its [isReady ()] method, and the identity of the object
  ([wsid]): two websockets may carry the same url and still be different
  objects.  The manager never changes a websocket; it only calls it. *)
Record WebSocket : Type := mkWebSocket {
  wsid : nat;
  url : option string;
  isReady : bool
}.

(** The two methods the manager calls on a websocket.  A call is recorded
    when the manager makes it; what the websocket does with it, a failure
    of its own included, is outside the manager. *)
Inductive Call : Type :=
  | Send (w : WebSocket) (event : string) (message : Message)
  | Disconnect (w : WebSocket).

#[global] Instance Message_eq_dec : EqDecision Message.
Proof. solve_decision. Defined.

#[global] Instance WebSocket_eq_dec : EqDecision WebSocket.
Proof. solve_decision. Defined.

#[global] Instance Call_eq_dec : EqDecision Call.
Proof. solve_decision. Defined.

(** ** The helpers of Ext the manager relies on *)

Module Ext.

(** [Ext.isEmpty (value)] on the values the url of a websocket takes
    here: true for undefined and for the empty string. *)
Definition isEmpty (value : option string) : bool :=
  match value with
  | None => true
  | Some s => bool_decide (s = "")
  end.

End Ext.

(** ** Ext.util.HashMap

  The hash map of the Ext library, as far as the manager uses it.  Its
  entries are the properties of a plain object, so its keys are property
  names: strings.  The manager also hands it values that are not strings
  (the url of a websocket that has none, a websocket object in place of
  its url); the object turns each of them into a property name before it
  looks. *)

Module HashMap.

Abbreviation t := (gmap string WebSocket).

(** The property name a key stands for: a string is its own name and
    undefined ([None]) is the name ["undefined"]. *)
Definition propertyName (key : option string) : string :=
  match key with
  | Some name => name
  | None => "undefined"
  end.

(** [add (key, value)]: a key that is already there gets the new value. *)
Definition add (key : string) (value : WebSocket) (map : t) : t :=
  <[key := value]> map.

Definition containsKey (key : option string) (map : t) : bool :=
  bool_decide (is_Some (map !! propertyName key)).

(** [get (key)]: the value, or undefined ([None]). *)
Definition get (key : option string) (map : t) : option WebSocket :=
  map !! propertyName key.

(** [removeAtKey (key)]: removes the entry if there is one. *)
Definition removeAtKey (key : option string) (map : t) : t :=
  delete (propertyName key) map.

(** [each (fn)]: calls [fn (key, value, length)] on every entry of a copy
    of the map taken when the iteration starts; the calls made by [fn]
    are collected in the order of the iteration, for which the order of
    [map_to_list] stands: the properties below do not depend on it.  None
    of the callbacks of the manager returns false, which would stop the
    iteration. *)
Definition each (fn : string → WebSocket → nat → list Call) (map : t)
  : list Call :=
  let items := map_to_list map in
  let len := size map in
  flat_map (λ item, fn item.1 item.2 len) items.

End HashMap.

(** ** Ext.ux.WebSocketManager *)

Module WebSocketManager.

(** The argument of [register] and [unregister]: one websocket, or an
    array of them. *)
Inductive Websockets : Type :=
  | One (websocket : WebSocket)
  | Many (websockets : list WebSocket).

(** "Changes websockets into an array in every case":
    [if (Ext.isObject (websockets)) websockets = [websockets]]. *)
Definition toArray (websockets : Websockets) : list WebSocket :=
  match websockets with
  | One websocket => [websocket]
  | Many websockets => websockets
  end.

(** The body of the loop of [register]: a websocket with an empty url is
    passed over.  The last branch is never taken, [Ext.isEmpty] holds of a
    url that is not there. *)
Definition register_step (wsList : HashMap.t) (websocket : WebSocket)
  : HashMap.t :=
  if Ext.isEmpty (url websocket) then wsList
  else match url websocket with
       | Some key => HashMap.add key websocket wsList
       | None => wsList
       end.

Definition register (websockets : Websockets) (wsList : HashMap.t)
  : HashMap.t :=
  foldl register_step wsList (toArray websockets).

Definition contains (websocket : WebSocket) (wsList : HashMap.t) : bool :=
  HashMap.containsKey (url websocket) wsList.

Definition get (url : string) (wsList : HashMap.t) : option WebSocket :=
  HashMap.get (Some url) wsList.

Definition each (fn : WebSocket → list Call) (wsList : HashMap.t)
  : list Call :=
  HashMap.each (λ url websocket len, fn websocket) wsList.

Definition unregister_step (wsList : HashMap.t) (websocket : WebSocket)
  : HashMap.t :=
  if HashMap.containsKey (url websocket) wsList
  then HashMap.removeAtKey (url websocket) wsList
  else wsList.

Definition unregister (websockets : Websockets) (wsList : HashMap.t)
  : HashMap.t :=
  foldl unregister_step wsList (toArray websockets).

(** The callback shared by [broadcast] and [multicast]. *)
Definition sendIfReady (event : string) (message : Message)
  (url : string) (websocket : WebSocket) (len : nat) : list Call :=
  if isReady websocket then [Send websocket event message] else [].

Definition broadcast (event : string) (message : Message)
  (wsList : HashMap.t) : HashMap.t * list Call :=
  (wsList, HashMap.each (sendIfReady event message) wsList).

(** An element of the array given to [multicast]: a url, or a websocket
    object as the documentation of the method has it. *)
Inductive Excluded : Type :=
  | ByUrl (url : string)
  | ByWebSocket (websocket : WebSocket).

(** The loop hands each element to [removeAtKey] as it is.  A url is the
    key of its entry; a websocket object reaches the map as the property
    name every such object is turned into, ["[object Object]"]: the url
    it carries plays no part. *)
Definition asKey (element : Excluded) : option string :=
  match element with
  | ByUrl url => Some url
  | ByWebSocket _ => Some "[object Object]"
  end.

(** The first argument of [multicast]: undefined or null, one websocket
    object, an array, or a value that is none of these (a bare url). *)
Inductive Exclusion : Type :=
  | Nothing
  | Object (websocket : WebSocket)
  | Array (elements : list Excluded)
  | Other (value : string).

(** The loop of [multicast] that takes the excluded entries off [list]. *)
Definition multicast_exclude (elements : list Excluded) (list : HashMap.t)
  : HashMap.t :=
  foldl (λ list element, HashMap.removeAtKey (asKey element) list)
        list elements.

(** [var list = me.wsList] is the registry itself, not a copy of it: what
    the loop removes from [list] is gone from [wsList] when [multicast]
    returns. *)
Definition multicast (websockets : Exclusion) (event : string)
  (message : Message) (wsList : HashMap.t) : HashMap.t * list Call :=
  let '(wsList, calls, websockets) :=
    match websockets with
    | Nothing =>
        let '(wsList, calls) := broadcast event message wsList in
        (wsList, calls, websockets)
    | Object websocket => (wsList, [], Array [ByWebSocket websocket])
    | _ => (wsList, [], websockets)
    end in
  match websockets with
  | Array elements =>
      let list := multicast_exclude elements wsList in
      (list, calls ++ HashMap.each (sendIfReady event message) list)
  | _ => (wsList, calls)
  end.

(** [disconnect (websocket)].  [None] stands for the TypeError of calling
    [disconnect ()] on undefined, were [get] to find nothing. *)
Definition disconnect (websocket : WebSocket) (wsList : HashMap.t)
  : option (HashMap.t * list Call) :=
  if HashMap.containsKey (url websocket) wsList then
    registered ← HashMap.get (url websocket) wsList;
    Some (HashMap.removeAtKey (url websocket) wsList,
          [Disconnect registered])
  else Some (wsList, []).

Definition disconnectAll (wsList : HashMap.t) : HashMap.t * list Call :=
  (wsList, HashMap.each (λ url websocket len, [Disconnect websocket]) wsList).

End WebSocketManager.

Import WebSocketManager.

(** ** Observations on a registry and on the calls of an operation *)

(** The registry the source keeps: every websocket sits under its own url,
    and that url is not empty.  It holds of the empty registry and every
    operation of the manager keeps it (see [registry_ok_register] and the
    lemmas after it). *)
Definition registry_ok (wsList : HashMap.t) : Prop :=
  map_Forall (λ key websocket, url websocket = Some key ∧ key ≠ "") wsList.

#[global] Instance registry_ok_dec wsList : Decision (registry_ok wsList).
Proof. unfold registry_ok. apply _. Defined.

(** One operation of the manager, as a step from the registry it finds
    to the registry it leaves.  [get], [contains] and [each] read only. *)
Inductive manager_step : HashMap.t → HashMap.t → Prop :=
  | step_register websockets wsList :
      manager_step wsList (register websockets wsList)
  | step_unregister websockets wsList :
      manager_step wsList (unregister websockets wsList)
  | step_broadcast event message wsList :
      manager_step wsList (broadcast event message wsList).1
  | step_multicast websockets event message wsList :
      manager_step wsList (multicast websockets event message wsList).1
  | step_disconnect websocket wsList wsList' calls :
      disconnect websocket wsList = Some (wsList', calls) →
      manager_step wsList wsList'
  | step_disconnectAll wsList :
      manager_step wsList (disconnectAll wsList).1.

(** The registries the singleton can be in: it starts with an empty
    [Ext.util.HashMap]. *)
Definition reachable (wsList : HashMap.t) : Prop :=
  rtc manager_step ∅ wsList.

(** The key under which the hash map looks when it is handed the url of
    [websocket]. *)
Definition keyOf (websocket : WebSocket) : string :=
  HashMap.propertyName (url websocket).

(** [websocket] itself, the very object, is in the registry. *)
Definition registered (websocket : WebSocket) (wsList : HashMap.t) : bool :=
  bool_decide (HashMap.get (url websocket) wsList = Some websocket).

(** The url of [websocket] is one of [urls]. *)
Definition excludes (urls : list string) (websocket : WebSocket) : bool :=
  match url websocket with
  | Some key => bool_decide (key ∈ urls)
  | None => false
  end.

Definition is_send_to (websocket : WebSocket) (call : Call) : bool :=
  match call with
  | Send w _ _ => bool_decide (w = websocket)
  | Disconnect _ => false
  end.

(** How many times [send] was called on [websocket]. *)
Definition sends_to (websocket : WebSocket) (calls : list Call) : nat :=
  length (List.filter (is_send_to websocket) calls).

(** The entries a registry has for one key. *)
Definition entries_for (key : string) (wsList : HashMap.t)
  : list (string * WebSocket) :=
  filter (λ item, item.1 = key) (map_to_list wsList).

(** The websocket [register] leaves under [key] after going through
    [websockets]: the last of them that has this url, if the url is not
    empty. *)
Definition last_registered (key : string) (websockets : list WebSocket)
  : option WebSocket :=
  last (filter (λ websocket, url websocket = Some key ∧ key ≠ "") websockets).

(** The property names under which the elements of an array given to
    [multicast] reach the hash map. *)
Definition excluded_names (elements : list Excluded) : list string :=
  (λ element, HashMap.propertyName (asKey element)) <$> elements.

(** How many times [disconnect ()] was called on [websocket]. *)
Definition disconnects_of (websocket : WebSocket) (calls : list Call) : nat :=
  length (filter (λ call, call = Disconnect websocket) calls).

(** *** Sample websockets *)

Definition r1 : WebSocket := mkWebSocket 1 (Some "ws://localhost:8888") true.
Definition r2 : WebSocket := mkWebSocket 2 (Some "ws://localhost:8900") true.
Definition r3 : WebSocket := mkWebSocket 3 (Some "ws://localhost:8950") true.

(** A websocket that is not ready, one with an empty url, one without a
    url, and a second object with the url of [r2]. *)
Definition r4 : WebSocket := mkWebSocket 4 (Some "ws://localhost:9000") false.
Definition r5 : WebSocket := mkWebSocket 5 (Some "") true.
Definition r6 : WebSocket := mkWebSocket 6 None true.
Definition r7 : WebSocket := mkWebSocket 7 (Some "ws://localhost:8900") true.

(** Two websockets whose urls are the property names that a missing url
    and a websocket object are turned into. *)
Definition r8 : WebSocket := mkWebSocket 8 (Some "undefined") true.
Definition r9 : WebSocket := mkWebSocket 9 (Some "[object Object]") true.

Definition three_ready : HashMap.t := register (Many [r1; r2; r3]) ∅.
Definition ready_and_not : HashMap.t := register (Many [r1; r4]) ∅.
Definition none_ready : HashMap.t := register (One r4) ∅.
Definition with_undefined : HashMap.t := register (Many [r1; r8]) ∅.
Definition with_object : HashMap.t := register (Many [r2; r9]) ∅.

(** * Properties *)

(** ** The hash map *)

Section hash_map.
Implicit Types (map wsList : HashMap.t) (key : string) (w : WebSocket).

Lemma containsKey_get (k : option string) map :
  HashMap.containsKey k map = bool_decide (is_Some (HashMap.get k map)).
Proof. done. Qed.

Lemma containsKey_false (k : option string) map :
  HashMap.containsKey k map = false ↔ HashMap.get k map = None.
Proof.
  rewrite containsKey_get, bool_decide_eq_false, <- eq_None_not_Some. done.
Qed.

Lemma removeAtKey_absent (k : option string) map :
  HashMap.containsKey k map = false → HashMap.removeAtKey k map = map.
Proof.
  rewrite containsKey_false. apply delete_id.
Qed.

Lemma get_removeAtKey (k : option string) map :
  HashMap.get k (HashMap.removeAtKey k map) = None.
Proof. apply lookup_delete_eq. Qed.

End hash_map.

(** ** Registration *)

Section registration.
Implicit Types (wsList : HashMap.t) (key : string) (h w : WebSocket).

Lemma isEmpty_false (value : option string) :
  Ext.isEmpty value = false ↔ ∃ key, value = Some key ∧ key ≠ "".
Proof.
  destruct value as [s|]; simpl.
  - rewrite bool_decide_eq_false. split.
    + intros Hs. by exists s.
    + by intros (key & [= ->] & Hkey).
  - split; [done|]. by intros (key & ? & _).
Qed.

Lemma register_step_empty wsList h :
  Ext.isEmpty (url h) = true → register_step wsList h = wsList.
Proof. unfold register_step. by intros ->. Qed.

Lemma register_step_insert wsList h key :
  url h = Some key → key ≠ "" → register_step wsList h = <[key := h]> wsList.
Proof.
  intros Hurl Hkey. unfold register_step. rewrite Hurl. simpl.
  by rewrite bool_decide_eq_false_2.
Qed.


Lemma register_One wsList h :
  register (One h) wsList = register_step wsList h.
Proof. done. Qed.

Lemma registry_ok_empty : registry_ok ∅.
Proof. apply map_Forall_empty. Qed.

Lemma registry_ok_register_step wsList h :
  registry_ok wsList → registry_ok (register_step wsList h).
Proof.
  intros Hok. destruct (Ext.isEmpty (url h)) eqn:Hempty.
  - by rewrite register_step_empty.
  - apply isEmpty_false in Hempty as (key & Hurl & Hkey).
    rewrite (register_step_insert _ _ key) by done.
    by apply map_Forall_insert_2.
Qed.

Lemma registry_ok_register websockets wsList :
  registry_ok wsList → registry_ok (register websockets wsList).
Proof.
  unfold register. generalize (toArray websockets). intros l.
  revert wsList.
  induction l as [|h l IH]; intros wsList Hok; simpl; [done|].
  by apply IH, registry_ok_register_step.
Qed.

Lemma registry_ok_delete wsList key :
  registry_ok wsList → registry_ok (delete key wsList).
Proof. intros Hok. by apply map_Forall_delete. Qed.

Lemma registry_ok_removeAtKey wsList (k : option string) :
  registry_ok wsList → registry_ok (HashMap.removeAtKey k wsList).
Proof. apply registry_ok_delete. Qed.

Lemma registry_ok_unregister websockets wsList :
  registry_ok wsList → registry_ok (unregister websockets wsList).
Proof.
  unfold unregister. generalize (toArray websockets). intros l.
  revert wsList.
  induction l as [|h l IH]; intros wsList Hok; simpl; [done|].
  apply IH. unfold unregister_step.
  destruct (HashMap.containsKey _ _); [|done].
  by apply registry_ok_removeAtKey.
Qed.



(** A websocket with an empty url, or none, is not in the registry. *)
Lemma registered_empty_url wsList h :
  registry_ok wsList → Ext.isEmpty (url h) = true → registered h wsList = false.
Proof.
  intros Hok Hempty. unfold registered, HashMap.get.
  apply bool_decide_eq_false_2. intros Hh.
  destruct (Hok _ _ Hh) as [Hurl Hkey]. rewrite Hurl in Hempty.
  simpl in *. by apply bool_decide_eq_true in Hempty.
Qed.

(** The entries under one key: at most one, the one [get] returns. *)
Lemma entries_for_lookup wsList key :
  entries_for key wsList
  = match wsList !! key with Some w => [(key, w)] | None => [] end.
Proof.
  unfold entries_for.
  pose proof (NoDup_fst_map_to_list wsList) as Hnodup.
  assert (Hin : ∀ w, (key, w) ∈ map_to_list wsList ↔ wsList !! key = Some w)
    by (intros; apply elem_of_map_to_list).
  revert Hnodup Hin. generalize (map_to_list wsList). intros l.
  generalize (wsList !! key). intros o. revert o.
  induction l as [|[k w] l IH]; intros o Hnodup Hin.
  - destruct o as [w|]; [|done].
    pose proof (proj2 (Hin w) eq_refl) as Hw. by apply elem_of_nil in Hw.
  - rewrite fmap_cons in Hnodup. apply NoDup_cons in Hnodup as [Hk Hnodup].
    destruct (decide (k = key)) as [->|Hne].
    + rewrite filter_cons_True by done.
      assert (o = Some w) as -> by (apply Hin; left).
      f_equal. rewrite (IH None); [done..|].
      intros w'. split; [|done]. intros Hw'.
      destruct Hk. apply list_elem_of_fmap. by exists (key, w').
    + rewrite filter_cons_False by done.
      apply IH; [done|]. intros w'. rewrite <- Hin, elem_of_cons.
      split; [by right|]. intros [[= ? ?]|?]; [congruence|done].
Qed.




(** Where no websocket is registered under ["undefined"], [contains]
    does not find [r6] after [register] has passed it over. *)
Example register_without_url :
  register (One r6) three_ready = three_ready
  ∧ contains r6 (register (One r6) three_ready) = false
  ∧ register (Many [r6; r4]) ∅ = register (One r4) ∅.
Proof. done. Qed.

(** C5: when two websockets with the same url, not empty, are registered
    in one call, the registry has one entry for that url and it is the
    second websocket: the last write wins. *)
Theorem register_last_write_wins wsList a b key :
  url a = Some key → url b = Some key → key ≠ "" →
  let wsList' := register (Many [a; b]) wsList in
  get key wsList' = Some b ∧ entries_for key wsList' = [(key, b)].
Proof.
  intros Ha Hb Hkey wsList'.
  assert (Hget : wsList' !! key = Some b).
  { unfold wsList', register. simpl.
    rewrite (register_step_insert _ a key), (register_step_insert _ b key)
      by done.
    apply lookup_insert_eq. }
  split; [done|]. by rewrite entries_for_lookup, Hget.
Qed.

Lemma register_last_write_wins_witness :
  get "ws://localhost:8900" (register (Many [r2; r7]) three_ready) = Some r7
  ∧ entries_for "ws://localhost:8900" (register (Many [r2; r7]) three_ready)
    = [("ws://localhost:8900", r7)].
Proof.
  apply (register_last_write_wins three_ready r2 r7 "ws://localhost:8900").
  - reflexivity.
  - reflexivity.
  - discriminate.
Defined.

(** C6: from any registry, a websocket with a url that is not empty is
    found by [contains] once it is registered, and no longer once it is
    unregistered after that. *)
Theorem register_unregister_round_trip wsList h :
  Ext.isEmpty (url h) = false →
  contains h (register (One h) wsList) = true
  ∧ contains h (unregister (One h) (register (One h) wsList)) = false.
Proof.
  intros (key & Hurl & Hkey)%isEmpty_false.
  rewrite register_One, (register_step_insert _ _ key) by done.
  assert (Hin : contains h (<[key := h]> wsList) = true).
  { unfold contains. rewrite Hurl. simpl.
    apply bool_decide_eq_true_2. rewrite lookup_insert_eq. by eexists. }
  split; [done|].
  unfold unregister, unregister_step. simpl.
  unfold contains in *. rewrite Hin.
  rewrite containsKey_false. apply get_removeAtKey.
Qed.

Lemma register_unregister_round_trip_witness :
  contains r4 (register (One r4) three_ready) = true
  ∧ contains r4 (unregister (One r4) (register (One r4) three_ready)) = false.
Proof.
  apply (register_unregister_round_trip three_ready r4). reflexivity.
Defined.

End registration.

(** ** Dispatch *)

Section dispatch.
Implicit Types (wsList : HashMap.t) (key : string) (h w : WebSocket).
Implicit Types (event : string) (message : Message) (calls : list Call).

Lemma sends_to_app w calls1 calls2 :
  sends_to w (calls1 ++ calls2) = sends_to w calls1 + sends_to w calls2.
Proof. unfold sends_to. by rewrite List.filter_app, length_app. Qed.

Lemma sends_to_sendIfReady event message key h len w :
  sends_to w (sendIfReady event message key h len)
  = if bool_decide (h = w) && isReady h then 1 else 0.
Proof.
  unfold sendIfReady, sends_to. destruct (isReady h); simpl.
  - rewrite andb_true_r. by destruct (bool_decide (h = w)).
  - by rewrite andb_false_r.
Qed.

(** Over entries that hold different websockets, [send] reaches each
    ready websocket once. *)
Lemma sends_to_items event message len w (items : list (string * WebSocket)) :
  NoDup items.*2 →
  sends_to w (flat_map (λ item, sendIfReady event message item.1 item.2 len)
                       items)
  = if bool_decide (w ∈ items.*2) && isReady w then 1 else 0.
Proof.
  induction items as [|[k h] items IH]; intros Hnodup; [done|].
  rewrite fmap_cons in Hnodup. apply NoDup_cons in Hnodup as [Hh Hnodup].
  rewrite fmap_cons. cbn [flat_map fst snd] in *.
  rewrite sends_to_app, sends_to_sendIfReady, IH by done.
  destruct (decide (h = w)) as [->|Hne].
  - rewrite (bool_decide_eq_true_2 (w = w)) by done.
    rewrite (bool_decide_eq_true_2 (w ∈ w :: items.*2)) by left.
    rewrite (bool_decide_eq_false_2 (w ∈ items.*2)) by done.
    simpl. by destruct (isReady w).
  - rewrite (bool_decide_eq_false_2 (h = w)) by done. simpl.
    destruct (decide (w ∈ items.*2)) as [Hin|Hout].
    + rewrite (bool_decide_eq_true_2 (w ∈ items.*2)) by done.
      by rewrite (bool_decide_eq_true_2 (w ∈ h :: items.*2)) by (by right).
    + rewrite (bool_decide_eq_false_2 (w ∈ items.*2)) by done.
      rewrite (bool_decide_eq_false_2 (w ∈ h :: items.*2)); [done|].
      rewrite elem_of_cons. intros [?|?]; congruence.
Qed.

(** Every call of the iteration is [send (event, message)] on a ready
    websocket of one of the entries. *)
Lemma each_sendIfReady_calls event message wsList call :
  call ∈ HashMap.each (sendIfReady event message) wsList →
  ∃ key w, wsList !! key = Some w ∧ isReady w = true
           ∧ call = Send w event message.
Proof.
  unfold HashMap.each. rewrite list_elem_of_In, in_flat_map.
  intros ([key w] & Hitem & Hcall). simpl in Hcall.
  apply list_elem_of_In, elem_of_map_to_list in Hitem.
  unfold sendIfReady in Hcall. destruct (isReady w) eqn:Hready.
  - destruct Hcall as [<-|[]]. by exists key, w.
  - destruct Hcall.
Qed.

(** In a registry of the manager no websocket sits under two keys. *)
Lemma registry_ok_values_NoDup wsList :
  registry_ok wsList → NoDup (map_to_list wsList).*2.
Proof.
  intros Hok. apply (NoDup_fmap_1 url).
  assert (Heq : url <$> (map_to_list wsList).*2
                = Some <$> (map_to_list wsList).*1).
  { assert (Hitems : Forall (λ item, url item.2 = Some item.1)
                            (map_to_list wsList)).
    { apply Forall_forall. intros [key w] Hitem%elem_of_map_to_list.
      by destruct (Hok _ _ Hitem). }
    induction Hitems as [|item items Hitem _ IH]; [done|].
    rewrite !fmap_cons. by f_equal. }
  rewrite Heq. apply NoDup_fmap_2; [apply _|]. apply NoDup_fst_map_to_list.
Qed.

Lemma registry_ok_registered wsList w :
  registry_ok wsList →
  w ∈ (map_to_list wsList).*2 ↔ registered w wsList = true.
Proof.
  intros Hok. unfold registered, HashMap.get.
  rewrite bool_decide_eq_true. split.
  - intros ([key w'] & -> & Hitem%elem_of_map_to_list)%list_elem_of_fmap.
    simpl. destruct (Hok _ _ Hitem) as [-> _]. done.
  - intros Hw. apply list_elem_of_fmap.
    exists (HashMap.propertyName (url w), w). split; [done|].
    by apply elem_of_map_to_list.
Qed.

(** The calls of the iteration shared by [broadcast] and [multicast]. *)
Lemma sends_to_each wsList event message w :
  registry_ok wsList →
  sends_to w (HashMap.each (sendIfReady event message) wsList)
  = if registered w wsList && isReady w then 1 else 0.
Proof.
  intros Hok. unfold HashMap.each.
  rewrite sends_to_items by by apply registry_ok_values_NoDup.
  destruct (registered w wsList) eqn:Hreg.
  - rewrite bool_decide_eq_true_2; [done|]. by apply registry_ok_registered.
  - rewrite bool_decide_eq_false_2; [done|].
    rewrite registry_ok_registered by done. by rewrite Hreg.
Qed.

(** What the loop of [multicast] leaves of the registry. *)
Lemma lookup_multicast_exclude elements wsList key :
  multicast_exclude elements wsList !! key
  = if bool_decide (Some key ∈ asKey <$> elements) then None
    else wsList !! key.
Proof.
  unfold multicast_exclude. revert wsList.
  induction elements as [|element elements IH]; intros wsList.
  - cbn [foldl fmap list_fmap].
    rewrite bool_decide_eq_false_2; [done|]. apply not_elem_of_nil.
  - cbn [foldl]. rewrite IH, fmap_cons.
    destruct (decide (Some key ∈ asKey <$> elements)) as [Hin|Hout].
    + rewrite (bool_decide_eq_true_2 _ Hin).
      by rewrite bool_decide_eq_true_2 by (by right).
    + rewrite (bool_decide_eq_false_2 _ Hout).
      destruct (decide (asKey element = Some key)) as [Heq|Hne].
      * rewrite bool_decide_eq_true_2 by (rewrite Heq; left).
        rewrite Heq. apply lookup_delete_eq.
      * rewrite bool_decide_eq_false_2.
        2:{ rewrite elem_of_cons. intros [?|?]; congruence. }
        apply lookup_delete_ne. destruct element; simpl in *; congruence.
Qed.

Lemma registry_ok_multicast_exclude elements wsList :
  registry_ok wsList → registry_ok (multicast_exclude elements wsList).
Proof.
  intros Hok key w. rewrite lookup_multicast_exclude.
  case_bool_decide; [done|]. apply Hok.
Qed.


Lemma registered_multicast_exclude (urls : list string) wsList w :
  registry_ok wsList →
  registered w (multicast_exclude (ByUrl <$> urls) wsList)
  = registered w wsList && negb (excludes urls w).
Proof.
  intros Hok. destruct (url w) as [key|] eqn:Hurl.
  - unfold registered, excludes, HashMap.get. rewrite Hurl. simpl.
    rewrite lookup_multicast_exclude.
    assert (Hkeys : Some key ∈ asKey <$> (ByUrl <$> urls) ↔ key ∈ urls).
    { rewrite <- list_fmap_compose. rewrite list_elem_of_fmap. split.
      - by intros (k & [= ->] & Hk).
      - intros Hk. by exists key. }
    destruct (decide (key ∈ urls)) as [Hin|Hout].
    + rewrite (bool_decide_eq_true_2 (key ∈ urls)) by done.
      rewrite (bool_decide_eq_true_2 (Some key ∈ _)) by by apply Hkeys.
      rewrite andb_false_r. by apply bool_decide_eq_false_2.
    + rewrite (bool_decide_eq_false_2 (key ∈ urls)) by done.
      rewrite (bool_decide_eq_false_2 (Some key ∈ _)) by by rewrite Hkeys.
      by rewrite andb_true_r.
  - rewrite !registered_empty_url;
      [done | done | by rewrite Hurl
      | by apply registry_ok_multicast_exclude | by rewrite Hurl].
Qed.

Lemma registry_ok_multicast websockets event message wsList :
  registry_ok wsList →
  registry_ok (multicast websockets event message wsList).1.
Proof.
  intros Hok.
  destruct websockets as [|websocket|elements|value]; try done.
  - by apply (registry_ok_multicast_exclude [ByWebSocket websocket]).
  - by apply (registry_ok_multicast_exclude elements).
Qed.

(** C3: [broadcast] calls [send (event, message)] once on every websocket
    of the registry that is ready, calls it on no websocket that is not
    ready or not registered, makes no other call, and leaves the registry
    as it is. *)
Theorem broadcast_reaches_ready wsList event message :
  registry_ok wsList →
  (broadcast event message wsList).1 = wsList
  ∧ (∀ call, call ∈ (broadcast event message wsList).2 →
             ∃ w, call = Send w event message)
  ∧ (∀ w, sends_to w (broadcast event message wsList).2
          = if registered w wsList && isReady w then 1 else 0).
Proof.
  intros Hok. split; [done|]. split.
  - intros call (key & w & _ & _ & ->)%each_sendIfReady_calls. by exists w.
  - intros w. by apply sends_to_each.
Qed.

(** C2: given an array of urls, [multicast] calls [send (event, message)]
    once on every websocket of the registry that is ready and whose url
    is not in the array, and makes no other call. *)
Theorem multicast_skips_excluded wsList (urls : list string) event message :
  registry_ok wsList →
  (∀ call, call ∈ (multicast (Array (ByUrl <$> urls)) event message wsList).2 →
           ∃ w, call = Send w event message)
  ∧ (∀ w, sends_to w
            (multicast (Array (ByUrl <$> urls)) event message wsList).2
          = if registered w wsList && isReady w && negb (excludes urls w)
            then 1 else 0).
Proof.
  intros Hok. cbn [multicast snd app]. split.
  - intros call (key & w & _ & _ & ->)%each_sendIfReady_calls. by exists w.
  - intros w.
    rewrite sends_to_each by by apply registry_ok_multicast_exclude.
    rewrite registered_multicast_exclude by done.
    by destruct (registered w wsList), (excludes urls w), (isReady w).
Qed.

Lemma broadcast_reaches_ready_witness :
  (broadcast "e" (MsgString "m") ready_and_not).1 = ready_and_not
  ∧ (∀ call, call ∈ (broadcast "e" (MsgString "m") ready_and_not).2 →
             ∃ w, call = Send w "e" (MsgString "m"))
  ∧ (∀ w, sends_to w (broadcast "e" (MsgString "m") ready_and_not).2
          = if registered w ready_and_not && isReady w then 1 else 0).
Proof.
  apply (broadcast_reaches_ready ready_and_not "e" (MsgString "m")).
  apply (bool_decide_eq_true_1 (registry_ok ready_and_not)).
  vm_compute. reflexivity.
Defined.

Lemma multicast_skips_excluded_witness :
  (∀ call,
     call ∈ (multicast (Array (ByUrl <$> ["ws://localhost:8900"]))
                       "e" (MsgString "m") three_ready).2 →
     ∃ w, call = Send w "e" (MsgString "m"))
  ∧ (∀ w, sends_to w
            (multicast (Array (ByUrl <$> ["ws://localhost:8900"]))
                       "e" (MsgString "m") three_ready).2
          = if registered w three_ready && isReady w
               && negb (excludes ["ws://localhost:8900"] w)
            then 1 else 0).
Proof.
  apply (multicast_skips_excluded three_ready ["ws://localhost:8900"]
           "e" (MsgString "m")).
  apply (bool_decide_eq_true_1 (registry_ok three_ready)).
  vm_compute. reflexivity.
Defined.

(** With [r1] ready and [r4] not, one call: [send] on [r1]. *)
Example broadcast_ready_and_not :
  (broadcast "e" (MsgString "m") ready_and_not).2
  = [Send r1 "e" (MsgString "m")].
Proof. vm_compute. reflexivity. Qed.

(** With [r1], [r2], [r3] ready and the url of [r2] excluded, [send] is
    called on [r1] and on [r3]. *)
Example multicast_three_ready :
  (multicast (Array [ByUrl "ws://localhost:8900"]) "e" (MsgString "m")
             three_ready).2
  ≡ₚ [Send r1 "e" (MsgString "m"); Send r3 "e" (MsgString "m")].
Proof. apply (bool_decide_unpack _). vm_compute. exact I. Qed.

(** An excluded url is unregistered by [multicast]. *)
Lemma multicast_removes_excluded wsList (urls : list string) event message key :
  key ∈ urls →
  get key (multicast (Array (ByUrl <$> urls)) event message wsList).1 = None.
Proof.
  intros Hkey. cbn [multicast fst]. unfold get, HashMap.get.
  rewrite lookup_multicast_exclude. rewrite bool_decide_eq_true_2; [done|].
  rewrite <- list_fmap_compose. apply list_elem_of_fmap. by exists key.
Qed.

(** C1, at the input where the code departs from it: [r1], [r2], [r3] are
    registered and ready; after [multicast] with the url of [r2] excluded,
    [r2] is no longer in the registry: [get] finds nothing under its url
    and [contains] is false. *)
Theorem multicast_unregisters_r2 :
  get "ws://localhost:8900" three_ready = Some r2
  ∧ get "ws://localhost:8900"
        (multicast (Array [ByUrl "ws://localhost:8900"]) "e" (MsgString "m")
                   three_ready).1 = None
  ∧ contains r2
        (multicast (Array [ByUrl "ws://localhost:8900"]) "e" (MsgString "m")
                   three_ready).1 = false.
Proof. vm_compute. done. Qed.

(** C7: without websockets to exclude (undefined or null), and with an
    empty array, [multicast] makes the calls of [broadcast] and leaves the
    registry as [broadcast] does: unchanged. *)
Theorem multicast_nothing_is_broadcast wsList event message :
  multicast Nothing event message wsList = broadcast event message wsList
  ∧ multicast (Array []) event message wsList
    = broadcast event message wsList
  ∧ (broadcast event message wsList).1 = wsList.
Proof. done. Qed.



(** Handing [multicast] the websocket [r2] instead of its url does not
    exclude it: [r2] is sent to and stays registered. *)
Example multicast_by_websocket :
  sends_to r2 (multicast (Array [ByWebSocket r2]) "e" (MsgString "m")
                         three_ready).2 = 1
  ∧ contains r2 (multicast (Array [ByWebSocket r2]) "e" (MsgString "m")
                           three_ready).1 = true.
Proof. vm_compute. done. Qed.

(** What a websocket object does take off the registry is the entry
    under ["[object Object]"], when there is one: here [r9], while [r2],
    the object handed over, is sent to. *)
Example multicast_by_websocket_object_name :
  multicast (Array [ByWebSocket r2]) "e" (MsgString "m") with_object
  = (register (One r2) ∅, [Send r2 "e" (MsgString "m")]).
Proof. vm_compute. done. Qed.

End dispatch.

(** ** Disconnection *)

Section disconnection.
Implicit Types (wsList : HashMap.t) (key : string) (h w : WebSocket).

(** C8: [disconnectAll] calls [disconnect ()] on every websocket of the
    registry, on nothing else, and removes no entry: every key still
    leads to its websocket afterwards. *)
Theorem disconnectAll_keeps_registry wsList :
  (disconnectAll wsList).1 = wsList
  ∧ (∀ key w, get key wsList = Some w →
              Disconnect w ∈ (disconnectAll wsList).2
              ∧ get key (disconnectAll wsList).1 = Some w)
  ∧ (∀ call, call ∈ (disconnectAll wsList).2 →
             ∃ key w, get key wsList = Some w ∧ call = Disconnect w).
Proof.
  split; [done|]. split.
  - intros key w Hw. split; [|done].
    cbn [disconnectAll snd]. unfold HashMap.each.
    rewrite list_elem_of_In, in_flat_map. exists (key, w). split.
    + by apply list_elem_of_In, elem_of_map_to_list.
    + by left.
  - intros call. cbn [disconnectAll snd]. unfold HashMap.each.
    rewrite list_elem_of_In, in_flat_map.
    intros ([key w] & Hitem%list_elem_of_In%elem_of_map_to_list & [<-|[]]).
    by exists key, w.
Qed.

Example disconnectAll_three_ready :
  (disconnectAll three_ready).2 ≡ₚ [Disconnect r1; Disconnect r2; Disconnect r3]
  ∧ get "ws://localhost:8900" (disconnectAll three_ready).1 = Some r2.
Proof.
  split; [|done]. apply (bool_decide_unpack _). vm_compute. exact I.
Qed.


(** [r7] is another object with the url of [r2]: it is [r2], the one
    registered, that is disconnected and whose entry goes; [r4] is not
    registered and nothing happens. *)
Example disconnect_three_ready :
  disconnect r7 three_ready
  = Some (register (Many [r1; r3]) ∅, [Disconnect r2])
  ∧ disconnect r4 three_ready = Some (three_ready, []).
Proof. split; [|done]. vm_compute. done. Qed.

(** [r6] has no url: the hash map looks under ["undefined"], where [r8]
    is registered, and it is [r8] that is disconnected and removed. *)
Example disconnect_no_url :
  disconnect r6 with_undefined = Some (register (One r1) ∅, [Disconnect r8])
  ∧ disconnect r6 three_ready = Some (three_ready, []).
Proof. split; [|done]. vm_compute. done. Qed.

Lemma registry_ok_disconnect wsList h wsList' calls :
  registry_ok wsList → disconnect h wsList = Some (wsList', calls) →
  registry_ok wsList'.
Proof.
  unfold disconnect. intros Hok.
  destruct (HashMap.containsKey _ _); [|by intros [= <- _]].
  destruct (HashMap.get _ _); simpl; [|done].
  intros [= <- _]. by apply registry_ok_removeAtKey.
Qed.

End disconnection.

(** ** The registries of the manager *)

Lemma registry_ok_step wsList wsList' :
  manager_step wsList wsList' → registry_ok wsList → registry_ok wsList'.
Proof.
  destruct 1; intros Hok; try done.
  - by apply registry_ok_register.
  - by apply registry_ok_unregister.
  - by apply registry_ok_multicast.
  - by eapply registry_ok_disconnect.
Qed.

(** Every registry the manager can be in keeps each websocket under its
    own url, which is not empty. *)
Lemma registry_ok_reachable wsList : reachable wsList → registry_ok wsList.
Proof.
  unfold reachable. revert wsList. apply rtc_ind_r.
  - apply registry_ok_empty.
  - intros before wsList _ Hstep Hok. by eapply registry_ok_step.
Qed.

Example three_ready_reachable : reachable three_ready.
Proof. apply rtc_once. apply step_register. Qed.

(** * Further properties of the operations *)

(** ** Removal by key *)

Section removal.
Implicit Types (wsList : HashMap.t) (key : string) (h w : WebSocket).

(** What a loop of [removeAtKey] leaves of a map: the entries under the
    property names of the keys it was handed are gone. *)
Lemma lookup_remove_all {A} (keyAt : A → option string) (items : list A)
    wsList key :
  foldl (λ map item, HashMap.removeAtKey (keyAt item) map) wsList items !! key
  = if bool_decide (key ∈ (λ item, HashMap.propertyName (keyAt item)) <$> items)
    then None else wsList !! key.
Proof.
  revert wsList. induction items as [|item items IH]; intros wsList.
  - cbn [foldl fmap list_fmap].
    rewrite bool_decide_eq_false_2; [done|]. apply not_elem_of_nil.
  - cbn [foldl]. rewrite IH, fmap_cons.
    set (names := (λ item, HashMap.propertyName (keyAt item)) <$> items).
    destruct (decide (key ∈ names)) as [Hin|Hout].
    + rewrite (bool_decide_eq_true_2 _ Hin).
      by rewrite bool_decide_eq_true_2 by (by right).
    + rewrite (bool_decide_eq_false_2 _ Hout).
      destruct (decide (HashMap.propertyName (keyAt item) = key)) as [Heq|Hne].
      * rewrite bool_decide_eq_true_2 by (rewrite Heq; left).
        rewrite <- Heq. apply lookup_delete_eq.
      * rewrite bool_decide_eq_false_2.
        2:{ rewrite elem_of_cons. intros [?|?]; congruence. }
        by apply lookup_delete_ne.
Qed.

(** The guard of [unregister] changes nothing: [removeAtKey] on a key that
    is not there is harmless. *)
Lemma unregister_step_remove wsList h :
  unregister_step wsList h = HashMap.removeAtKey (url h) wsList.
Proof.
  unfold unregister_step.
  destruct (HashMap.containsKey (url h) wsList) eqn:Hin; [done|].
  by rewrite removeAtKey_absent.
Qed.

Lemma unregister_remove_all websockets wsList :
  unregister websockets wsList
  = foldl (λ map h, HashMap.removeAtKey (url h) map) wsList
          (toArray websockets).
Proof.
  unfold unregister. generalize (toArray websockets). intros l.
  revert wsList. induction l as [|h l IH]; intros wsList; [done|].
  cbn [foldl]. by rewrite unregister_step_remove, IH.
Qed.

Lemma lookup_unregister websockets wsList key :
  unregister websockets wsList !! key
  = if bool_decide (key ∈ keyOf <$> toArray websockets) then None
    else wsList !! key.
Proof. rewrite unregister_remove_all. apply (lookup_remove_all url). Qed.

(** X1: [unregister] removes the entries under the keys of the websockets
    it is given, whichever object is registered there, and no other
    entry.  The key of a websocket is its url as the hash map reads it:
    ["undefined"] for a websocket without url. *)
Theorem unregister_removes_by_url websockets wsList key :
  get key (unregister websockets wsList)
  = if bool_decide (key ∈ keyOf <$> toArray websockets) then None
    else get key wsList.
Proof. apply lookup_unregister. Qed.

(** Unregistering [r6], which has no url, takes [r8] off the registry. *)
Example unregister_no_url :
  unregister (One r6) with_undefined = register (One r1) ∅.
Proof. vm_compute. done. Qed.

(** X2: unregistering the same websockets a second time changes nothing. *)
Theorem unregister_idempotent websockets wsList :
  unregister websockets (unregister websockets wsList)
  = unregister websockets wsList.
Proof.
  apply map_eq. intros key. rewrite !lookup_unregister.
  by case_bool_decide.
Qed.

(** X3: websockets none of which [contains] finds are ignored by
    [unregister]: the registry is unchanged. *)
Theorem unregister_unknown websockets wsList :
  Forall (λ h, contains h wsList = false) (toArray websockets) →
  unregister websockets wsList = wsList.
Proof.
  intros Habsent. apply map_eq. intros key. rewrite lookup_unregister.
  case_bool_decide as Hkey; [|done].
  apply list_elem_of_fmap in Hkey as (h & -> & Hh).
  rewrite Forall_forall in Habsent. specialize (Habsent h Hh).
  unfold contains in Habsent.
  symmetry. by apply containsKey_false in Habsent.
Qed.

Lemma unregister_unknown_witness :
  unregister (Many [r4; r6]) three_ready = three_ready.
Proof.
  apply (unregister_unknown (Many [r4; r6]) three_ready).
  repeat constructor.
Defined.

(** X4: registering a websocket that [contains] does not find and
    unregistering it again gives the registry back as it was.  (When the
    url was already taken, the websocket that held it is gone.) *)
Theorem unregister_register_fresh wsList h :
  contains h wsList = false →
  unregister (One h) (register (One h) wsList) = wsList.
Proof.
  intros Hfresh. apply map_eq. intros key. rewrite lookup_unregister.
  unfold contains in Hfresh. apply containsKey_false in Hfresh.
  rewrite register_One. cbn [toArray fmap list_fmap].
  case_bool_decide as Hkey.
  - apply list_elem_of_singleton in Hkey. by subst key.
  - destruct (Ext.isEmpty (url h)) eqn:Hempty.
    + by rewrite register_step_empty.
    + apply isEmpty_false in Hempty as (k & Hurl & Hk).
      rewrite (register_step_insert _ _ k) by done.
      apply lookup_insert_ne. intros ->. apply Hkey.
      unfold keyOf. rewrite Hurl. by apply list_elem_of_singleton.
Qed.

Lemma unregister_register_fresh_witness :
  unregister (One r4) (register (One r4) three_ready) = three_ready.
Proof. apply (unregister_register_fresh three_ready r4). reflexivity. Defined.

(** A websocket registered over another one takes its place for good. *)
Example unregister_register_taken :
  unregister (One r7) (register (One r7) three_ready)
  = register (Many [r1; r3]) ∅.
Proof. vm_compute. done. Qed.

End removal.

(** ** More on registration *)

Section registration_more.
Implicit Types (wsList : HashMap.t) (key : string) (h w a b : WebSocket).

Lemma last_registered_cons key h websockets :
  last_registered key (h :: websockets)
  = match last_registered key websockets with
    | Some w => Some w
    | None => if bool_decide (url h = Some key ∧ key ≠ "") then Some h
              else None
    end.
Proof.
  unfold last_registered. case_bool_decide as Hh.
  - rewrite filter_cons_True by done.
    apply (last_app [h]).
  - rewrite filter_cons_False by done.
    by destruct (last _).
Qed.

Lemma lookup_register_step wsList h key :
  register_step wsList h !! key
  = if bool_decide (url h = Some key ∧ key ≠ "") then Some h
    else wsList !! key.
Proof.
  destruct (Ext.isEmpty (url h)) eqn:Hempty.
  - rewrite register_step_empty by done.
    rewrite bool_decide_eq_false_2; [done|]. intros [Hurl Hkey].
    rewrite Hurl in Hempty. simpl in Hempty.
    by apply bool_decide_eq_true in Hempty.
  - apply isEmpty_false in Hempty as (k & Hurl & Hk).
    rewrite (register_step_insert _ _ k) by done.
    destruct (decide (k = key)) as [->|Hne].
    + rewrite bool_decide_eq_true_2 by done. apply lookup_insert_eq.
    + rewrite bool_decide_eq_false_2 by (intros [? _]; congruence).
      by apply lookup_insert_ne.
Qed.

Lemma lookup_register websockets wsList key :
  register websockets wsList !! key
  = match last_registered key (toArray websockets) with
    | Some w => Some w
    | None => wsList !! key
    end.
Proof.
  unfold register. generalize (toArray websockets). intros l.
  revert wsList. induction l as [|h l IH]; intros wsList; [done|].
  cbn [foldl]. rewrite IH, last_registered_cons, lookup_register_step.
  destruct (last_registered key l); [done|]. by case_bool_decide.
Qed.

(** X5: after [register], [get (key)] returns the last websocket of the
    array that has this url (when the url is not empty), and what it
    returned before when the array has none. *)
Theorem register_get_last websockets wsList key :
  get key (register websockets wsList)
  = match last_registered key (toArray websockets) with
    | Some w => Some w
    | None => get key wsList
    end.
Proof. apply lookup_register. Qed.

(** X6: registering the same websockets a second time changes nothing. *)
Theorem register_idempotent websockets wsList :
  register websockets (register websockets wsList)
  = register websockets wsList.
Proof.
  apply map_eq. intros key. rewrite !lookup_register.
  by destruct (last_registered key (toArray websockets)).
Qed.

(** X7: two websockets with different urls can be registered in either
    order. *)
Theorem register_commutes wsList a b :
  url a ≠ url b →
  register (Many [a; b]) wsList = register (Many [b; a]) wsList.
Proof.
  intros Hne. apply map_eq. intros key. rewrite !lookup_register.
  cbn [toArray]. rewrite !last_registered_cons.
  unfold last_registered. rewrite filter_nil. cbn [last].
  repeat case_bool_decide; try done.
  destruct Hne. destruct_and!. congruence.
Qed.

Lemma register_commutes_witness :
  register (Many [r1; r4]) three_ready = register (Many [r4; r1]) three_ready.
Proof. apply (register_commutes three_ready r1 r4). discriminate. Defined.

(** X8: [register] never takes a key out of the registry: what [contains]
    finds before, it finds afterwards. *)
Theorem register_keeps_keys websockets wsList h :
  contains h wsList = true → contains h (register websockets wsList) = true.
Proof.
  unfold contains, HashMap.containsKey.
  rewrite !bool_decide_eq_true, lookup_register.
  by destruct (last_registered _ (toArray websockets)).
Qed.

Lemma register_keeps_keys_witness :
  contains r2 (register (Many [r4; r7]) three_ready) = true.
Proof.
  apply (register_keeps_keys (Many [r4; r7]) three_ready r2). reflexivity.
Defined.

(** X9: the registry grows by one entry when a websocket with a url that
    is not empty and not yet a key is registered, and keeps its size
    otherwise. *)
Theorem register_size wsList h :
  size (register (One h) wsList)
  = if Ext.isEmpty (url h) || contains h wsList then size wsList
    else S (size wsList).
Proof.
  rewrite register_One. destruct (Ext.isEmpty (url h)) eqn:Hempty.
  - by rewrite register_step_empty.
  - apply isEmpty_false in Hempty as (key & Hurl & Hkey).
    rewrite (register_step_insert _ _ key), map_size_insert by done.
    unfold contains, HashMap.containsKey. rewrite Hurl. simpl.
    by destruct (wsList !! key) as [w|] eqn:Hw.
Qed.

(** X10: [unregister] takes one entry off the registry when [contains]
    finds the websocket, and none otherwise. *)
Theorem unregister_size wsList h :
  size (unregister (One h) wsList)
  = if contains h wsList then pred (size wsList) else size wsList.
Proof.
  unfold unregister, unregister_step, contains. cbn [toArray foldl].
  destruct (HashMap.containsKey (url h) wsList) eqn:Hin; [|done].
  apply bool_decide_eq_true in Hin. by apply map_size_delete_Some.
Qed.

(** X11: [contains] goes by the url alone: once [a] is registered,
    [contains (b)] is true for every websocket [b] with the url of [a],
    though it is [a] that [get] returns. *)
Theorem contains_same_url wsList a b key :
  url a = Some key → url b = Some key → key ≠ "" →
  contains b (register (One a) wsList) = true
  ∧ get key (register (One a) wsList) = Some a.
Proof.
  intros Ha Hb Hkey. rewrite register_One, (register_step_insert _ _ key)
    by done.
  unfold contains, get, HashMap.containsKey, HashMap.get. rewrite Hb. simpl.
  rewrite lookup_insert_eq.
  split; [|done]. apply bool_decide_eq_true_2. by eexists.
Qed.

Lemma contains_same_url_witness :
  contains r7 (register (One r2) ∅) = true
  ∧ get "ws://localhost:8900" (register (One r2) ∅) = Some r2.
Proof.
  apply (contains_same_url ∅ r2 r7 "ws://localhost:8900");
    [reflexivity | reflexivity | discriminate].
Defined.

End registration_more.

(** ** Iteration *)

Section iteration.
Implicit Types (wsList : HashMap.t) (key : string) (h w : WebSocket).
Implicit Types (fn : WebSocket → list Call).

Lemma each_insert_fresh fn wsList key h :
  wsList !! key = None →
  each fn (<[key := h]> wsList) ≡ₚ fn h ++ each fn wsList.
Proof.
  intros Hfresh. unfold each, HashMap.each.
  rewrite (Permutation_flat_map _ (map_to_list_insert wsList key h Hfresh)).
  done.
Qed.

(** X12: a websocket registered under a new url adds its own calls to
    those of an iteration, and nothing else: [each] visits it once, next
    to the websockets it visited before. *)
Theorem each_register_fresh fn wsList h :
  Ext.isEmpty (url h) = false → contains h wsList = false →
  each fn (register (One h) wsList) ≡ₚ fn h ++ each fn wsList.
Proof.
  intros (key & Hurl & Hkey)%isEmpty_false Hfresh.
  rewrite register_One, (register_step_insert _ _ key) by done.
  apply each_insert_fresh.
  unfold contains in Hfresh. apply containsKey_false in Hfresh.
  by rewrite Hurl in Hfresh.
Qed.

Lemma each_register_fresh_witness :
  each (λ w, [Disconnect w]) (register (One r4) three_ready)
  ≡ₚ [Disconnect r4] ++ each (λ w, [Disconnect w]) three_ready.
Proof.
  apply (each_register_fresh (λ w, [Disconnect w]) three_ready r4);
    reflexivity.
Defined.

(** X13: the calls of an iteration are those made for one registered
    websocket together with those of the iteration over the registry
    without it. *)
Theorem each_unregister fn wsList w :
  registered w wsList = true →
  each fn wsList ≡ₚ fn w ++ each fn (unregister (One w) wsList).
Proof.
  unfold registered. rewrite bool_decide_eq_true. intros Hw.
  unfold unregister. cbn [toArray foldl]. rewrite unregister_step_remove.
  unfold HashMap.get, HashMap.removeAtKey in *.
  rewrite <- (each_insert_fresh fn (delete (keyOf w) wsList) (keyOf w) w)
    by apply lookup_delete_eq.
  by rewrite insert_delete_id.
Qed.

Lemma each_unregister_witness :
  each (λ w, [Disconnect w]) three_ready
  ≡ₚ [Disconnect r2]
     ++ each (λ w, [Disconnect w]) (unregister (One r2) three_ready).
Proof.
  apply (each_unregister (λ w, [Disconnect w]) three_ready r2). reflexivity.
Defined.

End iteration.

(** ** More on dispatch *)

Section dispatch_more.
Implicit Types (wsList : HashMap.t) (key : string) (h w : WebSocket).
Implicit Types (event : string) (message : Message) (calls : list Call).

(** X14: [broadcast] makes no call at all exactly when no websocket of the
    registry is ready; an empty registry is one such case. *)
Theorem broadcast_silent_iff wsList event message :
  (broadcast event message wsList).2 = []
  ↔ ∀ key w, get key wsList = Some w → isReady w = false.
Proof.
  cbn [broadcast snd]. unfold HashMap.each, get, HashMap.get. split.
  - intros Hnil key w Hw%elem_of_map_to_list.
    destruct (isReady w) eqn:Hready; [|done].
    assert (Hin : In (Send w event message)
                     (flat_map (λ item, sendIfReady event message item.1
                                          item.2 (size wsList))
                               (map_to_list wsList))).
    { apply in_flat_map. exists (key, w). split.
      - by apply list_elem_of_In.
      - unfold sendIfReady. simpl. rewrite Hready. by left. }
    rewrite Hnil in Hin. destruct Hin.
  - intros Hnone.
    assert (Hitems : Forall (λ item, isReady item.2 = false)
                            (map_to_list wsList)).
    { apply Forall_forall. intros [key w] Hw%elem_of_map_to_list.
      by apply (Hnone key). }
    induction Hitems as [|[key w] items Hw _ IH]; [done|].
    cbn [flat_map]. unfold sendIfReady at 1. simpl in *. by rewrite Hw.
Qed.

Example broadcast_none_ready :
  (broadcast "e" (MsgString "m") none_ready).2 = []
  ∧ (broadcast "e" (MsgString "m") ∅).2 = [].
Proof. done. Qed.

(** X15: after [multicast] with an array, [get (key)] finds nothing under
    a key that is the property name of an element of the array (a url
    for a url, ["[object Object]"] for a websocket object) and what it
    found before under any other key: these entries, and only they, are
    unregistered. *)
Theorem multicast_registry_after elements event message wsList key :
  get key (multicast (Array elements) event message wsList).1
  = if bool_decide (key ∈ excluded_names elements) then None
    else get key wsList.
Proof. cbn [multicast fst]. apply (lookup_remove_all asKey). Qed.

(** A websocket object in the array takes off the entry under
    ["[object Object]"] and leaves the one under its own url. *)
Example multicast_registry_after_object :
  get "[object Object]"
      (multicast (Array [ByWebSocket r2]) "e" (MsgString "m") with_object).1
  = None
  ∧ get "ws://localhost:8900"
        (multicast (Array [ByWebSocket r2]) "e" (MsgString "m") with_object).1
    = Some r2.
Proof. vm_compute. done. Qed.

(** X16: the exclusion outlasts the call: a [broadcast] that follows a
    [multicast] with an array of urls reaches the websockets that the
    [multicast] reached, and no excluded one. *)
Theorem broadcast_after_multicast wsList (urls : list string)
    event message event' message' w :
  registry_ok wsList →
  sends_to w
    (broadcast event' message'
       (multicast (Array (ByUrl <$> urls)) event message wsList).1).2
  = sends_to w (multicast (Array (ByUrl <$> urls)) event message wsList).2
  ∧ (excludes urls w = true →
     sends_to w
       (broadcast event' message'
          (multicast (Array (ByUrl <$> urls)) event message wsList).1).2
     = 0).
Proof.
  intros Hok. cbn [multicast broadcast fst snd app].
  rewrite !sends_to_each by by apply registry_ok_multicast_exclude.
  split; [done|]. intros Hw.
  rewrite registered_multicast_exclude, Hw by done.
  by destruct (registered w wsList).
Qed.

Lemma broadcast_after_multicast_witness :
  sends_to r2
    (broadcast "later" (MsgString "n")
       (multicast (Array (ByUrl <$> ["ws://localhost:8900"])) "e"
                  (MsgString "m") three_ready).1).2
  = sends_to r2 (multicast (Array (ByUrl <$> ["ws://localhost:8900"])) "e"
                           (MsgString "m") three_ready).2
  ∧ (excludes ["ws://localhost:8900"] r2 = true →
     sends_to r2
       (broadcast "later" (MsgString "n")
          (multicast (Array (ByUrl <$> ["ws://localhost:8900"])) "e"
                     (MsgString "m") three_ready).1).2
     = 0).
Proof.
  apply (broadcast_after_multicast three_ready ["ws://localhost:8900"]
           "e" (MsgString "m") "later" (MsgString "n") r2).
  apply (bool_decide_eq_true_1 (registry_ok three_ready)).
  vm_compute. reflexivity.
Defined.

(** X17: given the urls of some websockets, [multicast] leaves the
    registry that [unregister] leaves when given these websockets. *)
Theorem multicast_registry_is_unregister wsList (urls : list string)
    (websockets : list WebSocket) event message :
  url <$> websockets = Some <$> urls →
  (multicast (Array (ByUrl <$> urls)) event message wsList).1
  = unregister (Many websockets) wsList.
Proof.
  intros Hurls. cbn [multicast fst]. apply map_eq. intros key.
  rewrite lookup_multicast_exclude, lookup_unregister. cbn [toArray].
  assert (Hkeys : keyOf <$> websockets = urls).
  { change keyOf with (HashMap.propertyName ∘ url).
    rewrite list_fmap_compose, Hurls, <- list_fmap_compose.
    apply list_fmap_id. }
  assert (Hnames : asKey <$> (ByUrl <$> urls) = Some <$> urls)
    by by rewrite <- list_fmap_compose.
  rewrite Hkeys, Hnames.
  destruct (decide (key ∈ urls)) as [Hin|Hout].
  - rewrite (bool_decide_eq_true_2 (key ∈ urls)) by done.
    by rewrite bool_decide_eq_true_2 by by apply list_elem_of_fmap_2.
  - rewrite (bool_decide_eq_false_2 (key ∈ urls)) by done.
    rewrite bool_decide_eq_false_2; [done|].
    by intros (k & [= ->] & Hk)%list_elem_of_fmap.
Qed.

Lemma multicast_registry_is_unregister_witness :
  (multicast (Array (ByUrl <$> ["ws://localhost:8900"; "ws://localhost:9000"]))
             "e" (MsgString "m") three_ready).1
  = unregister (Many [r7; r4]) three_ready.
Proof.
  apply (multicast_registry_is_unregister three_ready
           ["ws://localhost:8900"; "ws://localhost:9000"] [r7; r4]).
  reflexivity.
Defined.

Lemma multicast_exclude_idempotent elements wsList :
  multicast_exclude elements (multicast_exclude elements wsList)
  = multicast_exclude elements wsList.
Proof.
  apply map_eq. intros key. rewrite !lookup_multicast_exclude.
  by case_bool_decide.
Qed.

(** X18: a second [multicast] with the same arguments finds the registry
    the first one left, leaves it as it is and repeats the calls of the
    first. *)
Theorem multicast_twice websockets event message wsList :
  multicast websockets event message
            (multicast websockets event message wsList).1
  = multicast websockets event message wsList.
Proof.
  destruct websockets as [|websocket|elements|value]; try done;
    cbn [multicast fst app]; by rewrite multicast_exclude_idempotent.
Qed.

(** X19: when the array holds every key of the registry, [multicast]
    calls no websocket and leaves the registry empty. *)
Theorem multicast_all_excluded wsList (urls : list string) event message :
  map_Forall (λ key _, key ∈ urls) wsList →
  multicast (Array (ByUrl <$> urls)) event message wsList = (∅, []).
Proof.
  intros Hall. cbn [multicast app].
  assert (Hempty : multicast_exclude (ByUrl <$> urls) wsList = ∅).
  { apply map_empty. intros key. rewrite lookup_multicast_exclude.
    case_bool_decide as Hkey; [done|].
    apply eq_None_not_Some. intros [w Hw]. apply Hkey.
    rewrite <- list_fmap_compose. apply list_elem_of_fmap.
    exists key. split; [done|]. by apply (Hall key w). }
  rewrite Hempty. done.
Qed.

Lemma multicast_all_excluded_witness :
  multicast (Array (ByUrl <$> ["ws://localhost:9000"; "ws://localhost:8888"]))
            "e" (MsgString "m") ready_and_not
  = (∅, []).
Proof.
  apply (multicast_all_excluded ready_and_not
           ["ws://localhost:9000"; "ws://localhost:8888"]).
  apply (bool_decide_unpack _). vm_compute. exact I.
Defined.

End dispatch_more.

(** ** More on disconnection *)

Section disconnection_more.
Implicit Types (wsList : HashMap.t) (key : string) (h w : WebSocket).

(** Whatever [disconnect] returns, the key of the websocket is not in
    the registry afterwards. *)
Lemma disconnect_by_key_absent wsList h :
  match disconnect h wsList with
  | Some (wsList', _) => HashMap.containsKey (url h) wsList' = false
  | None => True
  end.
Proof.
  unfold disconnect.
  destruct (HashMap.containsKey (url h) wsList) eqn:Hin; [|done].
  destruct (HashMap.get (url h) wsList); simpl; [|done].
  rewrite containsKey_false. apply get_removeAtKey.
Qed.

Lemma disconnects_of_items w (items : list (string * WebSocket)) :
  NoDup items.*2 →
  disconnects_of w (flat_map (λ item, [Disconnect item.2]) items)
  = if bool_decide (w ∈ items.*2) then 1 else 0.
Proof.
  unfold disconnects_of.
  induction items as [|[k h] items IH]; intros Hnodup; [done|].
  rewrite fmap_cons in Hnodup. apply NoDup_cons in Hnodup as [Hh Hnodup].
  rewrite fmap_cons. cbn [flat_map fst snd app] in *.
  destruct (decide (h = w)) as [->|Hne].
  - rewrite filter_cons_True by done. cbn [length]. rewrite IH by done.
    rewrite (bool_decide_eq_false_2 (w ∈ items.*2)) by done.
    by rewrite (bool_decide_eq_true_2 (w ∈ w :: items.*2)) by left.
  - rewrite filter_cons_False by congruence. rewrite IH by done.
    destruct (decide (w ∈ items.*2)) as [Hin|Hout].
    + rewrite (bool_decide_eq_true_2 (w ∈ items.*2)) by done.
      by rewrite (bool_decide_eq_true_2 (w ∈ h :: items.*2)) by (by right).
    + rewrite (bool_decide_eq_false_2 (w ∈ items.*2)) by done.
      rewrite (bool_decide_eq_false_2 (w ∈ h :: items.*2)); [done|].
      rewrite elem_of_cons. intros [?|?]; congruence.
Qed.

(** X20: [disconnectAll] calls [disconnect ()] once on every websocket of
    the registry and never on a websocket that is not registered; it
    makes as many calls as the registry has entries. *)
Theorem disconnectAll_once_each wsList w :
  registry_ok wsList →
  disconnects_of w (disconnectAll wsList).2
  = (if registered w wsList then 1 else 0)
  ∧ length (disconnectAll wsList).2 = size wsList.
Proof.
  intros Hok. cbn [disconnectAll snd]. unfold HashMap.each. cbn beta zeta.
  split.
  - rewrite disconnects_of_items by by apply registry_ok_values_NoDup.
    destruct (registered w wsList) eqn:Hreg.
    + rewrite bool_decide_eq_true_2; [done|].
      by apply registry_ok_registered.
    + rewrite bool_decide_eq_false_2; [done|].
      rewrite registry_ok_registered by done. by rewrite Hreg.
  - rewrite <- length_map_to_list.
    induction (map_to_list wsList) as [|item items IH]; [done|].
    cbn [flat_map app length]. by rewrite IH.
Qed.

Lemma disconnectAll_once_each_witness :
  disconnects_of r2 (disconnectAll three_ready).2
  = (if registered r2 three_ready then 1 else 0)
  ∧ length (disconnectAll three_ready).2 = size three_ready.
Proof.
  apply (disconnectAll_once_each three_ready r2).
  apply (bool_decide_eq_true_1 (registry_ok three_ready)).
  vm_compute. reflexivity.
Defined.

(** X21: [disconnect] always returns, and the registry it leaves is the
    one [unregister] leaves for the same websocket. *)
Theorem disconnect_registry_is_unregister wsList h :
  fst <$> disconnect h wsList = Some (unregister (One h) wsList).
Proof.
  unfold disconnect, unregister, unregister_step. cbn [toArray foldl].
  rewrite containsKey_get.
  destruct (HashMap.get (url h) wsList) as [current|] eqn:Hcurrent.
  - by rewrite bool_decide_eq_true_2 by by eexists.
  - by rewrite bool_decide_eq_false_2 by by intros [? ?].
Qed.

(** X22: a second [disconnect] of the same websocket finds nothing to do:
    it makes no call and leaves the registry of the first. *)
Theorem disconnect_twice wsList h wsList' calls :
  disconnect h wsList = Some (wsList', calls) →
  disconnect h wsList' = Some (wsList', []).
Proof.
  intros Hfirst.
  assert (Hafter : HashMap.containsKey (url h) wsList' = false).
  { pose proof (disconnect_by_key_absent wsList h) as Hgone.
    rewrite Hfirst in Hgone. done. }
  unfold disconnect. by rewrite Hafter.
Qed.

Lemma disconnect_twice_witness :
  disconnect r7 (unregister (One r2) three_ready)
  = Some (unregister (One r2) three_ready, []).
Proof.
  apply (disconnect_twice three_ready r7 _ [Disconnect r2]).
  vm_compute. reflexivity.
Defined.

End disconnection_more.

(** ** The invariant of the registry *)

(** X23: in every registry the manager can reach from the empty one, a
    websocket sits under its own url and no entry sits under the empty
    url. *)
Theorem reachable_registry_keys wsList key w :
  reachable wsList → get key wsList = Some w →
  url w = Some key ∧ key ≠ "" ∧ contains w wsList = true.
Proof.
  intros Hok%registry_ok_reachable Hw.
  destruct (Hok key w Hw) as [Hurl Hkey].
  split; [done|]. split; [done|].
  unfold contains. rewrite Hurl. simpl.
  apply bool_decide_eq_true_2. by exists w.
Qed.

Lemma reachable_registry_keys_witness :
  url r2 = Some "ws://localhost:8900" ∧ "ws://localhost:8900" ≠ ""
  ∧ contains r2 three_ready = true.
Proof.
  apply (reachable_registry_keys three_ready "ws://localhost:8900" r2).
  - apply rtc_once, step_register.
  - reflexivity.
Defined.

(** ** How the operations compose with [broadcast] *)

Section composition.
Implicit Types (wsList : HashMap.t) (key : string) (h w : WebSocket).
Implicit Types (event : string) (message : Message).

Lemma registered_remove_all {A} (keyAt : A → option string) (items : list A)
    wsList w :
  registered w
    (foldl (λ map item, HashMap.removeAtKey (keyAt item) map) wsList items)
  = registered w wsList
    && negb (bool_decide
               (keyOf w ∈ (λ item, HashMap.propertyName (keyAt item)) <$> items)).
Proof.
  unfold registered, HashMap.get. rewrite lookup_remove_all.
  fold (keyOf w).
  set (names := (λ item, HashMap.propertyName (keyAt item)) <$> items).
  destruct (decide (keyOf w ∈ names)) as [Hin|Hout].
  - rewrite !(bool_decide_eq_true_2 (keyOf w ∈ names)) by done. simpl.
    by rewrite andb_false_r.
  - rewrite !(bool_decide_eq_false_2 (keyOf w ∈ names)) by done. simpl.
    by rewrite andb_true_r.
Qed.

(** X24: in an array that mixes urls and websocket objects, an element
    excludes the websocket registered under the property name it is read
    as: its own text for a url, ["[object Object]"] for a websocket
    object.  [send] is called once on every ready websocket of the
    registry whose key is none of these names; so a websocket handed
    over as an object is sent to all the same. *)
Theorem multicast_mixed_array wsList elements event message w :
  registry_ok wsList →
  sends_to w (multicast (Array elements) event message wsList).2
  = if registered w wsList && isReady w
       && negb (bool_decide (keyOf w ∈ excluded_names elements))
    then 1 else 0.
Proof.
  intros Hok. cbn [multicast snd app].
  rewrite sends_to_each by by apply registry_ok_multicast_exclude.
  unfold multicast_exclude, excluded_names. rewrite registered_remove_all.
  by destruct (registered w wsList), (isReady w), (bool_decide _).
Qed.

Lemma multicast_mixed_array_witness :
  sends_to r2
    (multicast (Array [ByWebSocket r2; ByUrl "ws://localhost:8888"])
               "e" (MsgString "m") three_ready).2
  = if registered r2 three_ready && isReady r2
       && negb (bool_decide
                  (keyOf r2 ∈ excluded_names [ByWebSocket r2;
                                              ByUrl "ws://localhost:8888"]))
    then 1 else 0.
Proof.
  apply (multicast_mixed_array three_ready
           [ByWebSocket r2; ByUrl "ws://localhost:8888"]
           "e" (MsgString "m") r2).
  apply (bool_decide_eq_true_1 (registry_ok three_ready)).
  vm_compute. reflexivity.
Defined.

(** [r2] handed over as an object gets the message; [r9], registered
    under ["[object Object]"], does not. *)
Example multicast_mixed_array_object_name :
  sends_to r2 (multicast (Array [ByWebSocket r2]) "e" (MsgString "m")
                         with_object).2 = 1
  ∧ sends_to r9 (multicast (Array [ByWebSocket r2]) "e" (MsgString "m")
                           with_object).2 = 0.
Proof. vm_compute. done. Qed.

(** X25: after [unregister], [broadcast] calls no websocket whose key is
    the key of an unregistered one, and calls the others as it would
    have before.  The key of a websocket is its url as the hash map reads
    it: ["undefined"] for a websocket without url. *)
Theorem broadcast_after_unregister wsList websockets event message w :
  registry_ok wsList →
  sends_to w (broadcast event message (unregister websockets wsList)).2
  = if bool_decide (keyOf w ∈ keyOf <$> toArray websockets) then 0
    else sends_to w (broadcast event message wsList).2.
Proof.
  intros Hok. cbn [broadcast snd].
  rewrite !sends_to_each by (done || by apply registry_ok_unregister).
  rewrite unregister_remove_all, (registered_remove_all url).
  change ((λ item, HashMap.propertyName (url item)) <$> toArray websockets)
    with (keyOf <$> toArray websockets).
  case_bool_decide; simpl; [|by rewrite andb_true_r].
  by rewrite andb_false_r.
Qed.

Lemma broadcast_after_unregister_witness :
  sends_to r2 (broadcast "e" (MsgString "m")
                         (unregister (One r7) three_ready)).2
  = if bool_decide (keyOf r2 ∈ keyOf <$> toArray (One r7)) then 0
    else sends_to r2 (broadcast "e" (MsgString "m") three_ready).2.
Proof.
  apply (broadcast_after_unregister three_ready (One r7)
           "e" (MsgString "m") r2).
  apply (bool_decide_eq_true_1 (registry_ok three_ready)).
  vm_compute. reflexivity.
Defined.

(** After [r6], which has no url, is unregistered, [r8] gets no
    broadcast any more. *)
Example broadcast_after_unregister_no_url :
  sends_to r8 (broadcast "e" (MsgString "m") with_undefined).2 = 1
  ∧ sends_to r8 (broadcast "e" (MsgString "m")
                           (unregister (One r6) with_undefined)).2 = 0.
Proof. vm_compute. done. Qed.

(** X26: after [disconnect (h)], [broadcast] calls no websocket that has
    the url of [h]: the one that was disconnected gets no more messages. *)
Theorem broadcast_after_disconnect wsList h wsList' calls event message w :
  registry_ok wsList →
  disconnect h wsList = Some (wsList', calls) →
  url w = url h →
  sends_to w (broadcast event message wsList').2 = 0.
Proof.
  intros Hok Hdisconnect Hurl. cbn [broadcast snd].
  rewrite sends_to_each by by eapply registry_ok_disconnect.
  pose proof (disconnect_by_key_absent wsList h) as Hgone.
  rewrite Hdisconnect in Hgone. apply containsKey_false in Hgone.
  unfold registered. rewrite Hurl, Hgone.
  by rewrite bool_decide_eq_false_2.
Qed.

Lemma broadcast_after_disconnect_witness :
  sends_to r2 (broadcast "e" (MsgString "m")
                         (unregister (One r2) three_ready)).2 = 0.
Proof.
  apply (broadcast_after_disconnect three_ready r7 _ [Disconnect r2]
           "e" (MsgString "m") r2).
  - apply (bool_decide_eq_true_1 (registry_ok three_ready)).
    vm_compute. reflexivity.
  - vm_compute. reflexivity.
  - reflexivity.
Defined.

(** X27: the websocket just registered gets the next [broadcast] once if
    its url is not empty and it is ready, and not at all otherwise. *)
Theorem broadcast_after_register wsList h event message :
  registry_ok wsList →
  sends_to h (broadcast event message (register (One h) wsList)).2
  = if negb (Ext.isEmpty (url h)) && isReady h then 1 else 0.
Proof.
  intros Hok. cbn [broadcast snd].
  rewrite sends_to_each by by apply registry_ok_register.
  rewrite register_One. destruct (Ext.isEmpty (url h)) eqn:Hempty; simpl.
  - rewrite register_step_empty by done.
    by rewrite registered_empty_url.
  - apply isEmpty_false in Hempty as (key & Hurl & Hkey).
    rewrite (register_step_insert _ _ key) by done.
    unfold registered, HashMap.get. rewrite Hurl. simpl.
    rewrite lookup_insert_eq.
    by rewrite bool_decide_eq_true_2.
Qed.

Lemma broadcast_after_register_witness :
  sends_to r7 (broadcast "e" (MsgString "m")
                         (register (One r7) three_ready)).2
  = if negb (Ext.isEmpty (url r7)) && isReady r7 then 1 else 0.
Proof.
  apply (broadcast_after_register three_ready r7 "e" (MsgString "m")).
  apply (bool_decide_eq_true_1 (registry_ok three_ready)).
  vm_compute. reflexivity.
Defined.

End composition.
